(** * spharpy: the packaging script [setup.py] and the transform-engine contracts

    The repository ships one source file, [setup.py].  Module [Script]
    embeds it statement by statement in a small exception/state/trace
    monad over a file store.  Module [Spharpy] holds the dimension and
    grid contracts of the numerical core, which is not part of the
    sources. *)

From Stdlib Require Import String Ascii List Bool Arith QArith Lia.
From stdpp Require Import base option list gmap strings.

Local Open Scope string_scope.

(* ================================================================== *)
(** ** The Python fragment used by [setup.py] *)
(* ================================================================== *)

Module Script.

(** Exceptions the statements of the script can raise. *)
Inductive exception : Type :=
| ModuleNotFoundError (module_name : string)
| FileNotFoundError (path : string)
| UnsupportedOperation (what : string)
| ValueError (what : string)
| SystemExit (message : string).

(** The [mode] argument of the builtin [open]; its default is ['r']. *)
Inductive open_mode : Type := mode_r | mode_w | mode_a.

Record file_object : Type := mk_file { fo_path : string; fo_mode : open_mode }.

#[global] Instance open_mode_eq_dec : EqDecision open_mode.
Proof. solve_decision. Defined.

#[global] Instance file_object_eq_dec : EqDecision file_object.
Proof. solve_decision. Defined.

(** Keyword arguments of the call [setup(...)], in the order of the source. *)
Record setup_kwargs : Type := mk_kwargs {
  name : string;
  version : string;
  description : string;
  long_description : string;
  author : string;
  author_email : string;
  url : string;
  packages : list string;
  include_package_data : bool;
  install_requires : list string;
  license : string;
  zip_safe : bool;
  keywords : string;
  classifiers : list string;
  test_suite : string;
  tests_require : list string;
  setup_requires : list string
}.

(** What an observer of the script's own statements sees: every call of
    [open] they make, and the call of [setuptools.setup] with its keyword
    arguments. *)
Inductive event : Type :=
| ev_open (path : string) (mode : open_mode)
| ev_setup (kw : setup_kwargs).

(** The store a run acts on: the text of every file (as [read()] returns
    it), the file objects currently open, and the third-party
    distributions that can be imported. *)
Record state : Type := mk_state {
  files : gmap string string;
  open_files : list file_object;
  installed : gset string
}.

Record outcome (A : Type) : Type := mk_outcome {
  result : exception + A;
  final : state;
  trace : list event
}.
Arguments mk_outcome {A} _ _ _.
Arguments result {A} _.
Arguments final {A} _.
Arguments trace {A} _.

Definition M (A : Type) : Type := state → outcome A.

Definition ret {A} (a : A) : M A := λ s, mk_outcome (inr a) s [].

Definition raise {A} (e : exception) : M A := λ s, mk_outcome (inl e) s [].

Definition bind {A B} (m : M A) (k : A → M B) : M B := λ s,
  let o := m s in
  match result o with
  | inl e => mk_outcome (inl e) (final o) (trace o)
  | inr a =>
      let o' := k a (final o) in
      mk_outcome (result o') (final o') (trace o ++ trace o')
  end.

#[global] Instance M_ret : MRet M := @ret.
#[global] Instance M_bind : MBind M := λ A B k m, bind m k.

Definition emit (e : event) : M () := λ s, mk_outcome (inr ()) s [e].

Definition get_state : M state := λ s, mk_outcome (inr s) s [].

Definition put_state (s' : state) : M () := λ _, mk_outcome (inr ()) s' [].

(** [try: m finally: fin] : [fin] runs whether or not [m] raised; an
    exception of [m] is raised again after it. *)
Definition try_finally {A} (m : M A) (fin : M ()) : M A := λ s,
  let o := m s in
  let o' := fin (final o) in
  match result o' with
  | inl e' => mk_outcome (inl e') (final o') (trace o ++ trace o')
  | inr _ => mk_outcome (result o) (final o') (trace o ++ trace o')
  end.

(** Modules that come with the interpreter. *)
Definition builtin_modules : list string := ["sys"; "os"; "io"].

(** [import m] and [from m import ...]. *)
Definition import_module (m : string) : M () :=
  s ← get_state;
  if bool_decide (m ∈ builtin_modules) || bool_decide (m ∈ installed s)
  then ret ()
  else raise (ModuleNotFoundError m).

(** The builtin [open(path, mode)]. *)
Definition open (path : string) (mode : open_mode) : M file_object :=
  emit (ev_open path mode);;
  s ← get_state;
  let f := mk_file path mode in
  let opened fs := put_state (mk_state fs (f :: open_files s) (installed s));; ret f in
  match mode, files s !! path with
  | mode_r, None => raise (FileNotFoundError path)
  | mode_r, Some _ => opened (files s)
  | mode_w, _ => opened (<[path := ""]> (files s))
  | mode_a, None => opened (<[path := ""]> (files s))
  | mode_a, Some _ => opened (files s)
  end.

(** [f.read()] : the whole text of the file, read from the start.  A file
    opened for reading exists; the store has no operation that removes
    one, and the empty text stands for that unreachable case. *)
Definition read (f : file_object) : M string :=
  s ← get_state;
  if bool_decide (f ∈ open_files s) then
    match fo_mode f, files s !! fo_path f with
    | mode_r, Some text => ret text
    | mode_r, None => ret ""
    | _, _ => raise (UnsupportedOperation "not readable")
    end
  else raise (ValueError "I/O operation on closed file.").

(** Drops the first occurrence of [f]: file objects are pushed on opening. *)
Fixpoint remove_first (f : file_object) (l : list file_object) : list file_object :=
  match l with
  | [] => []
  | g :: l' => if bool_decide (g = f) then l' else g :: remove_first f l'
  end.

(** [f.close()] *)
Definition close (f : file_object) : M () :=
  s ← get_state;
  put_state (mk_state (files s) (remove_first f (open_files s)) (installed s)).

(** [with cm as f: body] for a file object, whose [__exit__] closes it. *)
Definition with_ {A} (cm : M file_object) (body : file_object → M A) : M A :=
  f ← cm; try_finally (body f) (close f).

(** A call into library code whose effect on the store is given as a
    function; its inner events are not events of the script. *)
Definition call_library {A} (f : state → (exception + A) * state) : M A :=
  λ s, mk_outcome (f s).1 (f s).2 [].

Definition newline2 : string := String "010" (String "010" EmptyString).

Section SetupPy.

(** [setuptools.find_packages()], a function of the directory tree. *)
Variable find_packages : gmap string string → list string.

(** [setuptools.setup] is library code, not code of the script.  What a
    call does depends on the command line, on setup.cfg and on the
    setuptools at hand: it can end with an exception (SystemExit on a
    usage or command error) and it can change the store (.eggs, build,
    egg-info, installed distributions).  Its behaviour is a parameter,
    from the keyword arguments and the store to a result and the store
    afterwards. *)
Variable setuptools_setup : setup_kwargs → state → (exception + ()) * state.

(** The call [setup(...)] of the script: the call is observed, then the
    library code runs on the store. *)
Definition setup (kw : setup_kwargs) : M () :=
  emit (ev_setup kw);; call_library (setuptools_setup kw).

Definition requirements : list string :=
  ["numpy>=1.10"; "scipy"; "urllib3"; "matplotlib"].

Definition setup_requirements : list string := ["pytest-runner"].

Definition test_requirements : list string :=
  ["pytest"; "wheel"; "flake8"; "bump2version"].

(** The keyword arguments of the call that ends the script, as a function
    of the three values computed before it: [readme], [history] and the
    result of [find_packages()]. *)
Definition setup_call_kwargs (readme history : string) (found : list string)
  : setup_kwargs := {|
    name := "spharpy";
    version := "0.3.2";
    description := "Python package for spherical array processing.";
    long_description := (readme +:+ newline2) +:+ history;
    author := "Marco Berzborn";
    author_email := "marco.berzborn@akustik.rwth-aachen.de";
    url := "https://git.rwth-aachen.de/mbe/spharpy/";
    packages := found;
    include_package_data := true;
    install_requires := requirements;
    license := "MIT license";
    zip_safe := false;
    keywords := "spharpy";
    classifiers :=
      [ "Development Status :: 2 - Pre-Alpha";
        "Intended Audience :: Science/Research";
        "License :: OSI Approved :: MIT License";
        "Natural Language :: English";
        "Programming Language :: Python :: 3";
        "Programming Language :: Python :: 3.5";
        "Programming Language :: Python :: 3.6" ];
    test_suite := "tests";
    tests_require := test_requirements;
    setup_requires := setup_requirements
  |}.

(** The script, top to bottom. *)
Definition setup_py : M () :=
  import_module "sys";;
  import_module "setuptools";;
  readme ← with_ (open "README.rst" mode_r) (λ readme_file, read readme_file);
  history ← with_ (open "HISTORY.rst" mode_r) (λ history_file, read history_file);
  s ← get_state;
  setup (setup_call_kwargs readme history (find_packages (files s))).

(** The four ways a run of the script can go: the import of setuptools
    fails, one of the two files is missing, or [setup] is called and the
    run ends as that call ends. *)
Inductive run_shape (s : state) : outcome () → Prop :=
| shape_no_setuptools :
    "setuptools" ∉ installed s →
    run_shape s (mk_outcome (inl (ModuleNotFoundError "setuptools")) s [])
| shape_no_readme :
    "setuptools" ∈ installed s →
    files s !! "README.rst" = None →
    run_shape s (mk_outcome (inl (FileNotFoundError "README.rst")) s
                            [ev_open "README.rst" mode_r])
| shape_no_history readme :
    "setuptools" ∈ installed s →
    files s !! "README.rst" = Some readme →
    files s !! "HISTORY.rst" = None →
    run_shape s (mk_outcome (inl (FileNotFoundError "HISTORY.rst")) s
                            [ev_open "README.rst" mode_r; ev_open "HISTORY.rst" mode_r])
| shape_ok readme history :
    "setuptools" ∈ installed s →
    files s !! "README.rst" = Some readme →
    files s !! "HISTORY.rst" = Some history →
    run_shape s
      (mk_outcome
         (setuptools_setup (setup_call_kwargs readme history (find_packages (files s))) s).1
         (setuptools_setup (setup_call_kwargs readme history (find_packages (files s))) s).2
         [ev_open "README.rst" mode_r; ev_open "HISTORY.rst" mode_r;
          ev_setup (setup_call_kwargs readme history (find_packages (files s)))]).

End SetupPy.

(** The calls of [setup] in a trace, oldest first. *)
Fixpoint setup_calls (t : list event) : list setup_kwargs :=
  match t with
  | [] => []
  | ev_setup kw :: t' => kw :: setup_calls t'
  | ev_open _ _ :: t' => setup_calls t'
  end.

(** The calls of [open] in a trace, oldest first. *)
Fixpoint open_calls (t : list event) : list (string * open_mode) :=
  match t with
  | [] => []
  | ev_open path mode :: t' => (path, mode) :: open_calls t'
  | ev_setup _ :: t' => open_calls t'
  end.

(** A source tree with both text files, and an interpreter with
    setuptools. *)
Definition sample_files : gmap string string :=
  <["README.rst" := "spharpy"]> (<["HISTORY.rst" := "0.3.2 (2019)"]> ∅).

Definition sample_state : state := mk_state sample_files [] {["setuptools"]}.

(** The same tree without [HISTORY.rst]. *)
Definition sample_state_no_history : state :=
  mk_state (<["README.rst" := "spharpy"]> ∅) [] {["setuptools"]}.

Definition sample_find_packages (tree : gmap string string) : list string :=
  ["spharpy"].

(** The sample tree under an interpreter without setuptools. *)
Definition sample_state_no_setuptools : state := mk_state sample_files [] ∅.

(** An empty directory: neither text file is there. *)
Definition sample_state_empty_tree : state := mk_state ∅ [] {["setuptools"]}.

(** The sample tree with one more file, a file object already open on
    [README.rst], and one more distribution installed. *)
Definition sample_state_more : state :=
  mk_state (<["setup.cfg" := "[bdist_wheel]"]> sample_files)
           [mk_file "README.rst" mode_r]
           {["setuptools"; "numpy"]}.

(** The store [sample_state_more] without [HISTORY.rst]. *)
Definition sample_state_more_no_history : state :=
  mk_state (<["setup.cfg" := "[bdist_wheel]"]> (<["README.rst" := "spharpy"]> ∅))
           [mk_file "README.rst" mode_r]
           {["setuptools"; "numpy"]}.

(** A setuptools run with the command [egg_info]: it writes the metadata
    file of the distribution and ends normally. *)
Definition sample_setup_egg_info (kw : setup_kwargs) (s : state)
  : (exception + ()) * state :=
  (inr (),
   mk_state (<[name kw +:+ ".egg-info/PKG-INFO" := long_description kw]> (files s))
            (open_files s) (installed s)).

(** A setuptools that refuses a setup.cfg it finds in the directory and
    ends with SystemExit, changing nothing. *)
Definition sample_setup_strict (kw : setup_kwargs) (s : state)
  : (exception + ()) * state :=
  match files s !! "setup.cfg" with
  | Some _ => (inl (SystemExit "error in setup.cfg"), s)
  | None => (inr (), s)
  end.

(** The character ['\n']. *)
Definition LF : ascii := "010"%char.

End Script.

(* ================================================================== *)
(** ** Contracts of the numerical core *)
(* ================================================================== *)

Module Spharpy.

(** Modelled from the spec: the error taxonomy of section 7; the package
    modules that raise these are not among the sources. *)
Inductive error : Type :=
| InvalidGridError
| UnsupportedOrderError
| DimensionMismatchError.

(** Modelled from the spec: the [basisType] entry of the configuration
    surface (section 6). *)
Inductive basisType : Type := basis_real | basis_complex.

(** Modelled from the spec: the [transformMethod] entry of the
    configuration surface (section 6). *)
Inductive transformMethod : Type := quadrature | leastSquares.

Section Core.

(** A direction on the sphere and the scalars of sample and coefficient
    vectors; the spec fixes neither representation. *)
Variable point : Type.
Variable scalar : Type.
Variable zero : scalar.
Variables add mul : scalar → scalar → scalar.
Variable conj : scalar → scalar.
Variable of_weight : Q → scalar.

(** "points are degenerate", left open by the spec. *)
Variable degenerate : list point → bool.
(** The weights of a grid built without weights. *)
Variable default_weights : list point → list Q.
(** The numerical-stability ceiling of the Basis Evaluator. *)
Variable stability_ceiling : nat.
(** One basis value, for a basis type, a direction, degree n and mode m. *)
Variable basis_value : basisType → point → nat → Z → scalar.
(** The least-squares solve, a linear-algebra primitive of a dependency. *)
Variable lstsq : list (list scalar) → list scalar → list scalar.
(** Configuration of the engine. *)
Variable basis : basisType.
Variable method : transformMethod.

(** Modelled from the spec: the SamplingGrid of section 3, an ordered
    sequence of points with a parallel sequence of quadrature weights. *)
Record SamplingGrid : Type := mk_grid {
  points : list point;
  weights : list Q
}.

(** Modelled from the spec: the point count a grid exposes (section 4.1). *)
Definition pointCount (g : SamplingGrid) : nat := length (points g).

(** Modelled from the spec: construction of a SamplingGrid (section 4.1)
    from point coordinates and optional weights.  It fails with
    [InvalidGridError] on degenerate points and on a weight count that
    differs from the point count; section 4.1 names no other failure. *)
Definition make_grid (pts : list point) (ws : option (list Q))
  : error + SamplingGrid :=
  let w := match ws with Some supplied => supplied | None => default_weights pts end in
  if degenerate pts then inl InvalidGridError
  else if negb (Nat.eqb (length w) (length pts)) then inl InvalidGridError
  else inr (mk_grid pts w).

(** Modelled from the spec: the (n, m) ordering of section 3, n from 0 to
    N and m from -n to n. *)
Definition modes (N : nat) : list (nat * Z) :=
  flat_map (λ n, List.map (λ k, (n, Z.of_nat k - Z.of_nat n)%Z) (seq 0 (2 * n + 1)))
           (seq 0 (N + 1)).

(** Modelled from the spec: the coefficient vector length (N+1)² of
    section 3. *)
Definition numCoefficients (N : nat) : nat := (N + 1) * (N + 1).

(** Modelled from the spec: [evaluate(grid, maxOrder, basisType)] of
    section 4.2, one row per grid point and one column per (n, m). *)
Definition evaluate (g : SamplingGrid) (N : nat) (bt : basisType)
  : error + list (list scalar) :=
  if Nat.ltb stability_ceiling N then inl UnsupportedOrderError
  else inr (List.map (λ p, List.map (λ nm, basis_value bt p (fst nm) (snd nm)) (modes N))
                     (points g)).

(** Modelled from the spec: the inner product and the column access the
    two matrix products of section 4.3 are written with. *)
Definition dot (u v : list scalar) : scalar :=
  fold_right add zero (zip_with mul u v).

Definition column (j : nat) (B : list (list scalar)) : list scalar :=
  List.map (λ row, nth j row zero) B.

(** Modelled from the spec: [forwardTransform] of section 4.3.  The
    length of [samples] is checked first; the quadrature path computes
    BasisMatrixᴴ · diag(weights) · samples, the other path solves in the
    least-squares sense. *)
Definition forwardTransform (g : SamplingGrid) (N : nat) (samples : list scalar)
  : error + list scalar :=
  if negb (Nat.eqb (length samples) (pointCount g)) then inl DimensionMismatchError
  else
    match evaluate g N basis with
    | inl e => inl e
    | inr B =>
        match method with
        | quadrature =>
            let weighted := zip_with mul (List.map of_weight (weights g)) samples in
            inr (List.map (λ j, dot (List.map conj (column j B)) weighted)
                          (seq 0 (numCoefficients N)))
        | leastSquares => inr (lstsq B samples)
        end
    end.

(** Modelled from the spec: [inverseTransform] of section 4.3,
    samples = BasisMatrix · coefficients. *)
Definition inverseTransform (g : SamplingGrid) (N : nat) (coefficients : list scalar)
  : error + list scalar :=
  if negb (Nat.eqb (length coefficients) (numCoefficients N)) then inl DimensionMismatchError
  else
    match evaluate g N basis with
    | inl e => inl e
    | inr B => inr (List.map (λ row, dot row coefficients) B)
    end.

End Core.

Arguments mk_grid {point} _ _.
Arguments points {point} _.
Arguments weights {point} _.
Arguments pointCount {point} _.

(** A grid of 32 directions with equal weights, and an engine over the
    rationals, to run the contracts on. *)
Definition sample_points : list nat := seq 0 32.

Definition sample_weights : list Q := repeat (1 # 32)%Q 32.

Definition sample_grid : SamplingGrid nat := mk_grid sample_points sample_weights.

Definition sample_basis_value (bt : basisType) (p : nat) (n : nat) (m : Z) : Q :=
  (Z.of_nat p + m # 1)%Q.

Definition sample_forwardTransform
  : SamplingGrid nat → nat → list Q → error + list Q :=
  forwardTransform nat Q 0%Q Qplus Qmult (λ q, q) (λ q, q) 200 sample_basis_value
                   (λ B x, x) basis_real quadrature.

Definition sample_inverseTransform
  : SamplingGrid nat → nat → list Q → error + list Q :=
  inverseTransform nat Q 0%Q Qplus Qmult 200 sample_basis_value basis_real.

Definition sample_make_grid
  : list nat → option (list Q) → error + SamplingGrid nat :=
  make_grid nat (λ pts, Nat.ltb (length pts) 4) (λ pts, repeat (1 # 1)%Q (length pts)).

End Spharpy.

(* ================================================================== *)
(** ** Stepping through the script *)
(* ================================================================== *)

Module ScriptFacts.
Import Script.

Lemma bind_ok {A B} (m : M A) (k : A → M B) s a s' t :
  m s = mk_outcome (inr a) s' t →
  (m ≫= k) s = mk_outcome (result (k a s')) (final (k a s')) (t ++ trace (k a s')).
Proof. intros Hm. unfold mbind, M_bind, bind. by rewrite Hm. Qed.

Lemma bind_err {A B} (m : M A) (k : A → M B) s e s' t :
  m s = mk_outcome (inl e) s' t →
  (m ≫= k) s = mk_outcome (inl e) s' t.
Proof. intros Hm. unfold mbind, M_bind, bind. by rewrite Hm. Qed.

Lemma outcome_eta {A} (o : outcome A) :
  mk_outcome (result o) (final o) (trace o) = o.
Proof. by destruct o. Qed.

Lemma state_eta s : mk_state (files s) (open_files s) (installed s) = s.
Proof. by destruct s. Qed.

Lemma import_builtin m s :
  m ∈ builtin_modules → import_module m s = mk_outcome (inr ()) s [].
Proof.
  intros Hm. unfold import_module.
  rewrite (bind_ok get_state _ s s s []) by reflexivity.
  rewrite (bool_decide_eq_true_2 _ Hm). reflexivity.
Qed.

Lemma import_installed m s :
  m ∈ installed s → import_module m s = mk_outcome (inr ()) s [].
Proof.
  intros Hm. unfold import_module.
  rewrite (bind_ok get_state _ s s s []) by reflexivity.
  rewrite (bool_decide_eq_true_2 (m ∈ installed s) Hm), orb_true_r. reflexivity.
Qed.

Lemma import_missing m s :
  m ∉ builtin_modules → m ∉ installed s →
  import_module m s = mk_outcome (inl (ModuleNotFoundError m)) s [].
Proof.
  intros Hb Hi. unfold import_module.
  rewrite (bind_ok get_state _ s s s []) by reflexivity.
  rewrite (bool_decide_eq_false_2 _ Hb), (bool_decide_eq_false_2 _ Hi).
  reflexivity.
Qed.

Lemma setuptools_not_builtin : "setuptools" ∉ builtin_modules.
Proof.
  unfold builtin_modules. rewrite !elem_of_cons, elem_of_nil.
  intros [H | [H | [H | []]]]; discriminate H.
Qed.

Lemma sys_builtin : "sys" ∈ builtin_modules.
Proof. unfold builtin_modules. apply list_elem_of_here. Qed.

Lemma open_r_missing path s :
  files s !! path = None →
  open path mode_r s =
    mk_outcome (inl (FileNotFoundError path)) s [ev_open path mode_r].
Proof.
  intros Hp. unfold open.
  rewrite (bind_ok (emit _) _ s () s [ev_open path mode_r]) by reflexivity.
  rewrite (bind_ok get_state _ s s s []) by reflexivity.
  rewrite Hp. reflexivity.
Qed.

Lemma open_r_present path text s :
  files s !! path = Some text →
  open path mode_r s =
    mk_outcome (inr (mk_file path mode_r))
               (mk_state (files s) (mk_file path mode_r :: open_files s) (installed s))
               [ev_open path mode_r].
Proof.
  intros Hp. unfold open.
  rewrite (bind_ok (emit _) _ s () s [ev_open path mode_r]) by reflexivity.
  rewrite (bind_ok get_state _ s s s []) by reflexivity.
  rewrite Hp. reflexivity.
Qed.

Lemma read_open_r path text s :
  files s !! path = Some text →
  mk_file path mode_r ∈ open_files s →
  read (mk_file path mode_r) s = mk_outcome (inr text) s [].
Proof.
  intros Hp Hin. unfold read.
  rewrite (bind_ok get_state _ s s s []) by reflexivity.
  rewrite (bool_decide_eq_true_2 _ Hin). simpl. rewrite Hp. reflexivity.
Qed.

Lemma remove_first_head f l : remove_first f (f :: l) = l.
Proof. simpl. by rewrite bool_decide_eq_true_2. Qed.

(** [with open(path) as f: x = f.read()] on an existing file. *)
Lemma with_open_read_present path text s :
  files s !! path = Some text →
  with_ (open path mode_r) (λ f, read f) s =
    mk_outcome (inr text) s [ev_open path mode_r].
Proof.
  intros Hp. unfold with_.
  rewrite (bind_ok _ _ _ _ _ _ (open_r_present path text s Hp)).
  unfold try_finally.
  rewrite (read_open_r path text); [| exact Hp | simpl; apply list_elem_of_here].
  unfold close.
  rewrite (bind_ok get_state _ _ _ _ [] eq_refl).
  cbn [put_state result final trace files open_files installed].
  rewrite remove_first_head, state_eta. reflexivity.
Qed.

(** The same statement on a missing file: [open] raises, the body never runs. *)
Lemma with_open_read_missing path s :
  files s !! path = None →
  with_ (open path mode_r) (λ f, read f) s =
    mk_outcome (inl (FileNotFoundError path)) s [ev_open path mode_r].
Proof.
  intros Hp. unfold with_.
  by rewrite (bind_err _ _ _ _ _ _ (open_r_missing path s Hp)).
Qed.

Section Runs.

Variable find_packages : gmap string string → list string.
Variable setuptools_setup : setup_kwargs → state → (exception + ()) * state.

(** A run on a store without setuptools stops at the second import. *)
Lemma run_no_setuptools s :
  "setuptools" ∉ installed s →
  setup_py find_packages setuptools_setup s =
    mk_outcome (inl (ModuleNotFoundError "setuptools")) s [].
Proof.
  intros Hi. unfold setup_py.
  rewrite (bind_ok _ _ _ _ _ _ (import_builtin "sys" s sys_builtin)).
  by rewrite (bind_err _ _ _ _ _ _ (import_missing _ s setuptools_not_builtin Hi)).
Qed.

Lemma run_no_readme s :
  "setuptools" ∈ installed s →
  files s !! "README.rst" = None →
  setup_py find_packages setuptools_setup s =
    mk_outcome (inl (FileNotFoundError "README.rst")) s
               [ev_open "README.rst" mode_r].
Proof.
  intros Hi Hr. unfold setup_py.
  rewrite (bind_ok _ _ _ _ _ _ (import_builtin "sys" s sys_builtin)).
  rewrite (bind_ok _ _ _ _ _ _ (import_installed _ s Hi)).
  by rewrite (bind_err _ _ _ _ _ _ (with_open_read_missing _ s Hr)).
Qed.

Lemma run_no_history s readme :
  "setuptools" ∈ installed s →
  files s !! "README.rst" = Some readme →
  files s !! "HISTORY.rst" = None →
  setup_py find_packages setuptools_setup s =
    mk_outcome (inl (FileNotFoundError "HISTORY.rst")) s
               [ev_open "README.rst" mode_r; ev_open "HISTORY.rst" mode_r].
Proof.
  intros Hi Hr Hh. unfold setup_py.
  rewrite (bind_ok _ _ _ _ _ _ (import_builtin "sys" s sys_builtin)).
  rewrite (bind_ok _ _ _ _ _ _ (import_installed _ s Hi)).
  rewrite (bind_ok _ _ _ _ _ _ (with_open_read_present _ _ s Hr)).
  by rewrite (bind_err _ _ _ _ _ _ (with_open_read_missing _ s Hh)).
Qed.

Lemma run_ok s readme history :
  "setuptools" ∈ installed s →
  files s !! "README.rst" = Some readme →
  files s !! "HISTORY.rst" = Some history →
  setup_py find_packages setuptools_setup s =
    mk_outcome
      (setuptools_setup (setup_call_kwargs readme history (find_packages (files s))) s).1
      (setuptools_setup (setup_call_kwargs readme history (find_packages (files s))) s).2
      [ev_open "README.rst" mode_r; ev_open "HISTORY.rst" mode_r;
       ev_setup (setup_call_kwargs readme history (find_packages (files s)))].
Proof.
  intros Hi Hr Hh. unfold setup_py.
  rewrite (bind_ok _ _ _ _ _ _ (import_builtin "sys" s sys_builtin)).
  rewrite (bind_ok _ _ _ _ _ _ (import_installed _ s Hi)).
  rewrite (bind_ok _ _ _ _ _ _ (with_open_read_present _ _ s Hr)).
  rewrite (bind_ok _ _ _ _ _ _ (with_open_read_present _ _ s Hh)).
  rewrite (bind_ok get_state _ s s s [] eq_refl).
  reflexivity.
Qed.

(** Every run is one of the four shapes. *)
Lemma run_cases s : run_shape find_packages setuptools_setup s (setup_py find_packages setuptools_setup s).
Proof.
  destruct (decide ("setuptools" ∈ installed s)) as [Hi | Hi].
  - destruct (files s !! "README.rst") as [readme |] eqn:Hr.
    + destruct (files s !! "HISTORY.rst") as [history |] eqn:Hh.
      * rewrite (run_ok s readme history Hi Hr Hh). by eapply shape_ok.
      * rewrite (run_no_history s readme Hi Hr Hh). by eapply shape_no_history.
    + rewrite (run_no_readme s Hi Hr). by apply shape_no_readme.
  - rewrite (run_no_setuptools s Hi). by apply shape_no_setuptools.
Qed.

(** C7: whatever the store, every call of [setup] made by the script
    passes as [install_requires] exactly the list
    ['numpy>=1.10', 'scipy', 'urllib3', 'matplotlib']: the numerical
    primitives are declared dependencies. *)
Theorem install_requires_exact s kw :
  In kw (setup_calls (trace (setup_py find_packages setuptools_setup s))) →
  install_requires kw = ["numpy>=1.10"; "scipy"; "urllib3"; "matplotlib"].
Proof.
  destruct (run_cases s); simpl; intros Hin; try contradiction.
  destruct Hin as [<- | []]. reflexivity.
Qed.

(** C8: when README.rst holds [readme] and HISTORY.rst holds [history],
    every call of [setup] made by the script passes as [long_description]
    the text [readme], then the two characters LF LF, then [history]; and
    with setuptools importable the script makes exactly one such call. *)
Theorem long_description_readme_history s readme history :
  files s !! "README.rst" = Some readme →
  files s !! "HISTORY.rst" = Some history →
  (∀ kw, In kw (setup_calls (trace (setup_py find_packages setuptools_setup s))) →
         long_description kw
         = (readme +:+ String "010" (String "010" EmptyString)) +:+ history)
  ∧ ("setuptools" ∈ installed s →
     ∃ kw, setup_calls (trace (setup_py find_packages setuptools_setup s)) = [kw]).
Proof.
  intros Hr Hh. split.
  - destruct (run_cases s) as [| | |readme' history' Hi Hr' Hh'];
      simpl; intros kw Hin; try contradiction.
    destruct Hin as [<- | []].
    rewrite Hr in Hr'. rewrite Hh in Hh'.
    injection Hr' as <-. injection Hh' as <-. reflexivity.
  - intros Hi. rewrite (run_ok s readme history Hi Hr Hh). simpl. eauto.
Qed.

(** C9: when README.rst or HISTORY.rst is missing the script ends with
    an exception and never calls [setup]; with setuptools importable the
    exception is the FileNotFoundError of an [open] on a missing file. *)
Theorem missing_file_fails_before_setup s :
  files s !! "README.rst" = None ∨ files s !! "HISTORY.rst" = None →
  (∃ e, result (setup_py find_packages setuptools_setup s) = inl e
        ∧ ("setuptools" ∈ installed s →
           (e = FileNotFoundError "README.rst" ∧ files s !! "README.rst" = None)
           ∨ (e = FileNotFoundError "HISTORY.rst" ∧ files s !! "HISTORY.rst" = None)))
  ∧ setup_calls (trace (setup_py find_packages setuptools_setup s)) = [].
Proof.
  intros Hmiss.
  destruct (run_cases s) as [Hn | Hi Hr | readme Hi Hr Hh | readme history Hi Hr Hh];
    simpl.
  - split; [| reflexivity]. eexists; split; [reflexivity |]. intros Hi. contradiction.
  - split; [| reflexivity]. eexists; split; [reflexivity |]. intros _. by left.
  - split; [| reflexivity]. eexists; split; [reflexivity |]. intros _. by right.
  - destruct Hmiss as [Hm | Hm]; congruence.
Qed.

(** C10, as the script behaves: every [open] of a run is in mode 'r' on
    README.rst or HISTORY.rst; a run that does not reach [setup] leaves
    the text under every path unchanged; and in a run that reaches
    [setup] the files afterwards are what that call made of the initial
    store, so that a file that differs was written by [setup]. *)
Theorem script_statements_write_no_file s :
  Forall (λ c, c.2 = mode_r ∧ (c.1 = "README.rst" ∨ c.1 = "HISTORY.rst"))
         (open_calls (trace (setup_py find_packages setuptools_setup s)))
  ∧ (setup_calls (trace (setup_py find_packages setuptools_setup s)) = [] →
     files (final (setup_py find_packages setuptools_setup s)) = files s)
  ∧ (∀ kw, In kw (setup_calls (trace (setup_py find_packages setuptools_setup s))) →
           files (final (setup_py find_packages setuptools_setup s))
           = files (setuptools_setup kw s).2).
Proof.
  assert (Hopen : ∀ l,
             l = [("README.rst", mode_r)] ∨ l = [] ∨
             l = [("README.rst", mode_r); ("HISTORY.rst", mode_r)] →
             Forall (λ c : string * open_mode,
                       c.2 = mode_r ∧ (c.1 = "README.rst" ∨ c.1 = "HISTORY.rst")) l).
  { intros l [-> | [-> | ->]];
      repeat (apply List.Forall_cons; [split; simpl; [reflexivity | auto] |]);
      apply List.Forall_nil. }
  destruct (run_cases s) as [Hn | Hi Hr | readme Hi Hr Hh | readme history Hi Hr Hh];
    cbn [trace final open_calls setup_calls].
  - split; [apply Hopen; auto |]. split; [reflexivity | intros kw []].
  - split; [apply Hopen; auto |]. split; [reflexivity | intros kw []].
  - split; [apply Hopen; auto |]. split; [reflexivity | intros kw []].
  - split; [apply Hopen; auto |]. split; [discriminate |].
    intros kw [<- | []]. reflexivity.
Qed.

End Runs.

Lemma install_requires_exact_witness :
  In (setup_call_kwargs "spharpy" "0.3.2 (2019)" ["spharpy"])
     (setup_calls (trace (setup_py sample_find_packages sample_setup_egg_info sample_state)))
  ∧ install_requires (setup_call_kwargs "spharpy" "0.3.2 (2019)" ["spharpy"])
    = ["numpy>=1.10"; "scipy"; "urllib3"; "matplotlib"].
Proof.
  assert (Hin : In (setup_call_kwargs "spharpy" "0.3.2 (2019)" ["spharpy"])
                   (setup_calls (trace (setup_py sample_find_packages sample_setup_egg_info sample_state)))).
  { vm_compute. left. reflexivity. }
  split; [exact Hin |].
  exact (install_requires_exact sample_find_packages sample_setup_egg_info sample_state _ Hin).
Defined.

Lemma long_description_readme_history_witness :
  files sample_state !! "README.rst" = Some "spharpy"
  ∧ files sample_state !! "HISTORY.rst" = Some "0.3.2 (2019)"
  ∧ ((∀ kw, In kw (setup_calls (trace (setup_py sample_find_packages sample_setup_egg_info sample_state))) →
            long_description kw
            = ("spharpy" +:+ String "010" (String "010" EmptyString)) +:+ "0.3.2 (2019)")
     ∧ ("setuptools" ∈ installed sample_state →
        ∃ kw, setup_calls (trace (setup_py sample_find_packages sample_setup_egg_info sample_state)) = [kw])).
Proof.
  assert (Hr : files sample_state !! "README.rst" = Some "spharpy")
    by (vm_compute; reflexivity).
  assert (Hh : files sample_state !! "HISTORY.rst" = Some "0.3.2 (2019)")
    by (vm_compute; reflexivity).
  split; [exact Hr |]. split; [exact Hh |].
  exact (long_description_readme_history sample_find_packages sample_setup_egg_info sample_state _ _ Hr Hh).
Defined.

Lemma missing_file_fails_before_setup_witness :
  (files sample_state_no_history !! "README.rst" = None
   ∨ files sample_state_no_history !! "HISTORY.rst" = None)
  ∧ setup_calls (trace (setup_py sample_find_packages sample_setup_egg_info sample_state_no_history)) = [].
Proof.
  assert (Hm : files sample_state_no_history !! "README.rst" = None
               ∨ files sample_state_no_history !! "HISTORY.rst" = None)
    by (right; vm_compute; reflexivity).
  split; [exact Hm |].
  exact (proj2 (missing_file_fails_before_setup sample_find_packages
                  sample_setup_egg_info sample_state_no_history Hm)).
Defined.

Lemma script_statements_write_no_file_witness :
  (setup_calls (trace (setup_py sample_find_packages sample_setup_egg_info
                         sample_state_no_history)) = []
   ∧ files (final (setup_py sample_find_packages sample_setup_egg_info
                     sample_state_no_history))
     = files sample_state_no_history)
  ∧ (In (setup_call_kwargs "spharpy" "0.3.2 (2019)" ["spharpy"])
        (setup_calls (trace (setup_py sample_find_packages sample_setup_egg_info
                               sample_state)))
     ∧ files (final (setup_py sample_find_packages sample_setup_egg_info sample_state))
       = files (sample_setup_egg_info
                  (setup_call_kwargs "spharpy" "0.3.2 (2019)" ["spharpy"])
                  sample_state).2).
Proof.
  assert (Hc : setup_calls (trace (setup_py sample_find_packages sample_setup_egg_info
                                     sample_state_no_history)) = [])
    by (vm_compute; reflexivity).
  assert (Hin : In (setup_call_kwargs "spharpy" "0.3.2 (2019)" ["spharpy"])
                   (setup_calls (trace (setup_py sample_find_packages
                                          sample_setup_egg_info sample_state)))).
  { vm_compute. left. reflexivity. }
  split.
  - split; [exact Hc |].
    exact (proj1 (proj2 (script_statements_write_no_file sample_find_packages
                           sample_setup_egg_info sample_state_no_history)) Hc).
  - split; [exact Hin |].
    exact (proj2 (proj2 (script_statements_write_no_file sample_find_packages
                           sample_setup_egg_info sample_state)) _ Hin).
Defined.

(** Read of the whole run, [setup] included, C10 fails: with a [setup]
    that runs the command egg_info, the run on the sample tree ends
    normally and the store then holds a file that was not there before. *)
Lemma egg_info_run_writes_a_file :
  result (setup_py sample_find_packages sample_setup_egg_info sample_state) = inr ()
  ∧ files sample_state !! "spharpy.egg-info/PKG-INFO" = None
  ∧ is_Some (files (final (setup_py sample_find_packages sample_setup_egg_info
                             sample_state))
             !! "spharpy.egg-info/PKG-INFO")
  ∧ files (final (setup_py sample_find_packages sample_setup_egg_info sample_state))
    ≠ files sample_state.
Proof.
  assert (Hnone : files sample_state !! "spharpy.egg-info/PKG-INFO" = None)
    by (vm_compute; reflexivity).
  assert (Hsome : is_Some (files (final (setup_py sample_find_packages
                                           sample_setup_egg_info sample_state))
                           !! "spharpy.egg-info/PKG-INFO"))
    by (eexists; vm_compute; reflexivity).
  split; [vm_compute; reflexivity |]. split; [exact Hnone |]. split; [exact Hsome |].
  intros Heq. rewrite Heq, Hnone in Hsome. by destruct Hsome.
Qed.

(** The run on the sample tree, computed. *)
Example sample_run :
  result (setup_py sample_find_packages sample_setup_egg_info sample_state) = inr ()
  ∧ trace (setup_py sample_find_packages sample_setup_egg_info sample_state)
    = [ev_open "README.rst" mode_r; ev_open "HISTORY.rst" mode_r;
       ev_setup (setup_call_kwargs "spharpy" "0.3.2 (2019)" ["spharpy"])].
Proof. split; vm_compute; reflexivity. Qed.

Example sample_run_no_history :
  setup_py sample_find_packages sample_setup_egg_info sample_state_no_history
  = mk_outcome (inl (FileNotFoundError "HISTORY.rst")) sample_state_no_history
      [ev_open "README.rst" mode_r; ev_open "HISTORY.rst" mode_r].
Proof. vm_compute. reflexivity. Qed.

Example sample_long_description :
  long_description (setup_call_kwargs "a" "b" []) = String "a" (String "010" (String "010" "b")).
Proof. reflexivity. Qed.

End ScriptFacts.

(* ================================================================== *)
(** ** The contracts of grid construction and of the two transforms *)
(* ================================================================== *)

Module SpharpyFacts.
Import Spharpy.

Section CoreFacts.

Variable point : Type.
Variable scalar : Type.
Variable zero : scalar.
Variables add mul : scalar → scalar → scalar.
Variable conj : scalar → scalar.
Variable of_weight : Q → scalar.
Variable degenerate : list point → bool.
Variable default_weights : list point → list Q.
Variable stability_ceiling : nat.
Variable basis_value : basisType → point → nat → Z → scalar.
Variable lstsq : list (list scalar) → list scalar → list scalar.
Variable basis : basisType.
Variable method : transformMethod.

Local Abbreviation make := (make_grid point degenerate default_weights).
Local Abbreviation forward :=
  (forwardTransform point scalar zero add mul conj of_weight stability_ceiling
                    basis_value lstsq basis method).
Local Abbreviation inverse :=
  (inverseTransform point scalar zero add mul stability_ceiling basis_value basis).
Local Abbreviation eval := (evaluate point scalar stability_ceiling basis_value).

Lemma length_flat_map_seq (f : nat → list (nat * Z)) (g : nat → nat) n :
  (∀ k, length (f k) = g k) →
  length (flat_map f (seq 0 n)) = list_sum (List.map g (seq 0 n)).
Proof.
  intros Hf. induction (seq 0 n) as [| k l IH]; simpl; [reflexivity |].
  by rewrite length_app, Hf, IH.
Qed.

Lemma sum_odd n : list_sum (List.map (λ k, 2 * k + 1) (seq 0 n)) = n * n.
Proof.
  induction n as [| n IH]; [reflexivity |].
  rewrite seq_S, List.map_app, list_sum_app, IH. simpl. lia.
Qed.

(** The (n, m) ordering has (N+1)² entries. *)
Lemma length_modes N : length (modes N) = numCoefficients N.
Proof.
  unfold modes, numCoefficients.
  rewrite (length_flat_map_seq _ (λ k, 2 * k + 1)).
  - apply sum_odd.
  - intros k. by rewrite length_map, length_seq.
Qed.

(** A basis matrix has one row per grid point and (N+1)² columns. *)
Lemma evaluate_shape g N bt B :
  eval g N bt = inr B →
  length B = pointCount g ∧ Forall (λ row, length row = numCoefficients N) B.
Proof.
  unfold evaluate. destruct (Nat.ltb stability_ceiling N); [discriminate |].
  intros [= <-]. split.
  - by rewrite length_map.
  - apply List.Forall_forall. intros row Hrow.
    apply List.in_map_iff in Hrow as (p & <- & _).
    by rewrite length_map, length_modes.
Qed.

(** C4: a sample vector whose length differs from the point count makes
    [forwardTransform] end in DimensionMismatchError, a coefficient
    vector whose length differs from (maxOrder+1)² makes
    [inverseTransform] end in DimensionMismatchError, and in both cases
    the result carries no vector. *)
Theorem dimension_mismatch_is_fatal g N samples coefficients :
  (length samples ≠ pointCount g →
   forward g N samples = inl DimensionMismatchError
   ∧ ∀ v, forward g N samples ≠ inr v)
  ∧ (length coefficients ≠ (N + 1) ^ 2 →
     inverse g N coefficients = inl DimensionMismatchError
     ∧ ∀ v, inverse g N coefficients ≠ inr v).
Proof.
  split.
  - intros Hlen. unfold forwardTransform.
    apply Nat.eqb_neq in Hlen. rewrite Hlen. simpl. split; [reflexivity |].
    intros v. discriminate.
  - intros Hlen. unfold inverseTransform, numCoefficients.
    rewrite Nat.pow_2_r in Hlen.
    apply Nat.eqb_neq in Hlen. rewrite Hlen. simpl. split; [reflexivity |].
    intros v. discriminate.
Qed.


End CoreFacts.

Lemma dimension_mismatch_is_fatal_witness :
  (length (repeat (1 # 1)%Q 30) ≠ pointCount sample_grid
   ∧ sample_forwardTransform sample_grid 3 (repeat (1 # 1)%Q 30)
     = inl DimensionMismatchError)
  ∧ (length (repeat (1 # 1)%Q 15) ≠ (3 + 1) ^ 2
     ∧ sample_inverseTransform sample_grid 3 (repeat (1 # 1)%Q 15)
       = inl DimensionMismatchError).
Proof.
  assert (Hs : length (repeat (1 # 1)%Q 30) ≠ pointCount sample_grid)
    by (vm_compute; lia).
  assert (Hc : length (repeat (1 # 1)%Q 15) ≠ (3 + 1) ^ 2)
    by (vm_compute; lia).
  destruct (dimension_mismatch_is_fatal nat Q 0%Q Qplus Qmult (λ q, q) (λ q, q)
              200 sample_basis_value (λ B x, x) basis_real quadrature
              sample_grid 3 (repeat (1 # 1)%Q 30) (repeat (1 # 1)%Q 15))
    as [Hf Hi].
  split; split; [exact Hs | exact (proj1 (Hf Hs)) | exact Hc | exact (proj1 (Hi Hc))].
Defined.



Example make_grid_default_weights :
  sample_make_grid [0; 1; 2; 3] None = inr (mk_grid [0; 1; 2; 3] (repeat (1 # 1)%Q 4)).
Proof. reflexivity. Qed.

Example forward_on_matching_lengths :
  ∃ v, sample_forwardTransform sample_grid 3 (repeat (1 # 1)%Q 32) = inr v
       ∧ length v = 16.
Proof. eexists. split; [vm_compute; reflexivity | reflexivity]. Qed.

End SpharpyFacts.

(* ================================================================== *)
(** ** Further properties of the script *)
(* ================================================================== *)

Module ScriptMore.
Import Script ScriptFacts.

Lemma string_length_append (a b : string) :
  String.length (a +:+ b) = String.length a + String.length b.
Proof.
  induction a as [| c a IH]; [reflexivity |].
  change (S (String.length (a +:+ b)) = S (String.length a + String.length b)).
  by rewrite IH.
Qed.

Lemma string_append_assoc (a b c : string) :
  (a +:+ b) +:+ c = a +:+ (b +:+ c).
Proof.
  induction a as [| x a IH]; [reflexivity |].
  change (String x ((a +:+ b) +:+ c) = String x (a +:+ (b +:+ c))).
  by rewrite IH.
Qed.

Lemma string_prefix_append (a b : string) : String.prefix a (a +:+ b) = true.
Proof.
  induction a as [| c a IH]; [by destruct b |].
  change (String.prefix (String c a) (String c (a +:+ b)) = true). simpl.
  destruct (ascii_dec c c) as [_ | Hne]; [exact IH | by destruct Hne].
Qed.

Lemma string_get_append_right (a b : string) (n : nat) :
  String.get (String.length a + n) (a +:+ b) = String.get n b.
Proof. rewrite Nat.add_comm. symmetry. apply String.append_correct2. Qed.

Section MoreRuns.

Variable find_packages : gmap string string → list string.
Variable setuptools_setup : setup_kwargs → state → (exception + ()) * state.

(** X1: the script reaches its call of [setup] exactly when setuptools
    can be imported and the store holds a text for README.rst and for
    HISTORY.rst; in particular a run that ends without an exception
    had all three. *)
Theorem setup_reached_iff s :
  (setup_calls (trace (setup_py find_packages setuptools_setup s)) ≠ []
   ↔ "setuptools" ∈ installed s
     ∧ is_Some (files s !! "README.rst")
     ∧ is_Some (files s !! "HISTORY.rst"))
  ∧ (result (setup_py find_packages setuptools_setup s) = inr () →
     "setuptools" ∈ installed s
     ∧ is_Some (files s !! "README.rst")
     ∧ is_Some (files s !! "HISTORY.rst")).
Proof.
  destruct (run_cases find_packages setuptools_setup s)
    as [Hn | Hi Hr | readme Hi Hr Hh | readme history Hi Hr Hh];
    cbn [result trace setup_calls]; (split; [split |]).
  - intros H. by destruct H.
  - intros (Hi & _ & _). contradiction.
  - discriminate.
  - intros H. by destruct H.
  - intros (_ & [x Hx] & _). congruence.
  - discriminate.
  - intros H. by destruct H.
  - intros (_ & _ & [x Hx]). congruence.
  - discriminate.
  - intros _. rewrite Hr, Hh. eauto.
  - discriminate.
  - intros _. rewrite Hr, Hh. eauto.
Qed.

(** X2: a run calls [setup] at most once.  A run without that call ends
    with an exception of the script's own statements; a run with it has
    the call as its last event and ends exactly as [setup] ends on the
    store the script started from: the script does nothing after it
    and has changed nothing before it. *)
Theorem setup_is_last_and_decides s :
  (∃ e, result (setup_py find_packages setuptools_setup s) = inl e
        ∧ setup_calls (trace (setup_py find_packages setuptools_setup s)) = [])
  ∨ (∃ kw, setup_calls (trace (setup_py find_packages setuptools_setup s)) = [kw]
           ∧ last (trace (setup_py find_packages setuptools_setup s))
             = Some (ev_setup kw)
           ∧ result (setup_py find_packages setuptools_setup s)
             = (setuptools_setup kw s).1
           ∧ final (setup_py find_packages setuptools_setup s)
             = (setuptools_setup kw s).2).
Proof.
  destruct (run_cases find_packages setuptools_setup s);
    cbn [result final trace setup_calls].
  - left. eauto.
  - left. eauto.
  - left. eauto.
  - right. eexists. repeat split; reflexivity.
Qed.

(** X3: without setuptools the script stops at the import with
    ModuleNotFoundError, before it opens any file, whatever the
    directory holds. *)
Theorem no_setuptools_fails_before_any_open s :
  "setuptools" ∉ installed s →
  result (setup_py find_packages setuptools_setup s)
  = inl (ModuleNotFoundError "setuptools")
  ∧ trace (setup_py find_packages setuptools_setup s) = [].
Proof.
  intros Hn. by rewrite (run_no_setuptools find_packages setuptools_setup s Hn).
Qed.

(** X4: README.rst is opened first: when it is missing the exception
    names README.rst and HISTORY.rst is never opened, whether or not it
    exists. *)
Theorem readme_is_opened_first s :
  "setuptools" ∈ installed s →
  files s !! "README.rst" = None →
  result (setup_py find_packages setuptools_setup s)
  = inl (FileNotFoundError "README.rst")
  ∧ open_calls (trace (setup_py find_packages setuptools_setup s))
    = [("README.rst", mode_r)].
Proof.
  intros Hi Hr. by rewrite (run_no_readme find_packages setuptools_setup s Hi Hr).
Qed.

(** X5: the events of a run come in one fixed order: open README.rst,
    open HISTORY.rst, call [setup]; every run performs an initial part
    of that sequence. *)
Theorem trace_is_prefix_of_full_run s :
  ∃ kw, trace (setup_py find_packages setuptools_setup s) `prefix_of`
        [ev_open "README.rst" mode_r; ev_open "HISTORY.rst" mode_r; ev_setup kw].
Proof.
  exists (setup_call_kwargs
            (default "" (files s !! "README.rst"))
            (default "" (files s !! "HISTORY.rst"))
            (find_packages (files s))).
  destruct (run_cases find_packages setuptools_setup s)
    as [Hn | Hi Hr | readme Hi Hr Hh | readme history Hi Hr Hh];
    cbn [trace].
  - apply prefix_nil.
  - by eexists.
  - by eexists.
  - rewrite Hr, Hh. simpl. reflexivity.
Qed.

(** X6: a run that does not reach [setup] leaves the whole store as it
    found it: the file object opened on README.rst is closed again by
    its [with] statement also when the run then fails on HISTORY.rst,
    so the open file objects are those of before the run. *)
Theorem failed_run_restores_store s :
  setup_calls (trace (setup_py find_packages setuptools_setup s)) = [] →
  final (setup_py find_packages setuptools_setup s) = s.
Proof.
  destruct (run_cases find_packages setuptools_setup s);
    cbn [final trace setup_calls]; intros Hcalls;
    [reflexivity | reflexivity | reflexivity | discriminate Hcalls].
Qed.

(** X7: the [packages] argument of every [setup] call is the result of
    [find_packages()] on the directory as it was when the script
    started. *)
Theorem packages_from_initial_tree s kw :
  In kw (setup_calls (trace (setup_py find_packages setuptools_setup s))) →
  packages kw = find_packages (files s).
Proof.
  destruct (run_cases find_packages setuptools_setup s); cbn [trace setup_calls];
    intros Hin; try contradiction.
  destruct Hin as [<- | []]. reflexivity.
Qed.

(** X8: the [long_description] of a [setup] call starts with the text of
    README.rst, has the two characters LF LF right after it, and is as
    long as both texts plus two; for two empty files it is just LF LF. *)
Theorem long_description_layout s readme history kw :
  files s !! "README.rst" = Some readme →
  files s !! "HISTORY.rst" = Some history →
  In kw (setup_calls (trace (setup_py find_packages setuptools_setup s))) →
  String.length (long_description kw)
  = String.length readme + 2 + String.length history
  ∧ String.prefix readme (long_description kw) = true
  ∧ String.get (String.length readme) (long_description kw) = Some LF
  ∧ String.get (String.length readme + 1) (long_description kw) = Some LF.
Proof.
  intros Hr Hh.
  destruct (run_cases find_packages setuptools_setup s)
    as [| | |readme' history' Hi Hr' Hh'];
    cbn [trace setup_calls]; intros Hin; try contradiction.
  destruct Hin as [<- | []].
  rewrite Hr in Hr'. rewrite Hh in Hh'.
  injection Hr' as <-. injection Hh' as <-.
  cbn [long_description setup_call_kwargs].
  repeat split.
  - rewrite !string_length_append. reflexivity.
  - rewrite string_append_assoc. apply string_prefix_append.
  - rewrite string_append_assoc.
    rewrite <- (Nat.add_0_r (String.length readme)).
    rewrite string_get_append_right. reflexivity.
  - rewrite string_append_assoc.
    rewrite string_get_append_right. reflexivity.
Qed.

(** X9: what the script itself does depends on nothing but the
    importability of setuptools, the texts of README.rst and HISTORY.rst
    and the packages found: two stores that agree on these give the same
    events, with the same arguments for [setup], and, when [setup] is
    not reached, the same exception. *)
Theorem script_depends_on_two_files_only s1 s2 :
  ("setuptools" ∈ installed s1 ↔ "setuptools" ∈ installed s2) →
  files s1 !! "README.rst" = files s2 !! "README.rst" →
  files s1 !! "HISTORY.rst" = files s2 !! "HISTORY.rst" →
  find_packages (files s1) = find_packages (files s2) →
  trace (setup_py find_packages setuptools_setup s1)
  = trace (setup_py find_packages setuptools_setup s2)
  ∧ (setup_calls (trace (setup_py find_packages setuptools_setup s1)) = [] →
     result (setup_py find_packages setuptools_setup s1)
     = result (setup_py find_packages setuptools_setup s2)).
Proof.
  intros Hi Hr Hh Hp.
  destruct (run_cases find_packages setuptools_setup s1)
    as [Hn1 | Hi1 Hr1 | r1 Hi1 Hr1 Hh1 | r1 h1 Hi1 Hr1 Hh1].
  - rewrite (run_no_setuptools find_packages setuptools_setup s2); [done | tauto].
  - rewrite (run_no_readme find_packages setuptools_setup s2);
      [done | tauto | congruence].
  - rewrite (run_no_history find_packages setuptools_setup s2 r1);
      [done | tauto | congruence..].
  - rewrite (run_ok find_packages setuptools_setup s2 r1 h1); [| tauto | congruence..].
    cbn [result trace setup_calls]. rewrite Hp. split; [reflexivity | discriminate].
Qed.

End MoreRuns.

Lemma setup_reached_iff_witness :
  setup_calls (trace (setup_py sample_find_packages sample_setup_egg_info sample_state))
  ≠ []
  ∧ result (setup_py sample_find_packages sample_setup_egg_info sample_state_empty_tree)
    ≠ inr ().
Proof.
  assert (Hi : "setuptools" ∈ installed sample_state)
    by (simpl; by apply elem_of_singleton).
  assert (Hr : is_Some (files sample_state !! "README.rst"))
    by (eexists; vm_compute; reflexivity).
  assert (Hh : is_Some (files sample_state !! "HISTORY.rst"))
    by (eexists; vm_compute; reflexivity).
  split.
  - exact (proj2 (proj1 (setup_reached_iff sample_find_packages sample_setup_egg_info
                           sample_state))
                 (conj Hi (conj Hr Hh))).
  - intros Hok.
    destruct (proj2 (setup_reached_iff sample_find_packages sample_setup_egg_info
                       sample_state_empty_tree) Hok)
      as (_ & [x Hx] & _).
    vm_compute in Hx. discriminate Hx.
Defined.

Lemma no_setuptools_fails_before_any_open_witness :
  ("setuptools" ∉ installed sample_state_no_setuptools)
  ∧ result (setup_py sample_find_packages sample_setup_egg_info
              sample_state_no_setuptools)
    = inl (ModuleNotFoundError "setuptools")
  ∧ trace (setup_py sample_find_packages sample_setup_egg_info
             sample_state_no_setuptools) = [].
Proof.
  assert (Hn : "setuptools" ∉ installed sample_state_no_setuptools)
    by (simpl; apply not_elem_of_empty).
  split; [exact Hn |].
  exact (no_setuptools_fails_before_any_open sample_find_packages
           sample_setup_egg_info _ Hn).
Defined.

Lemma readme_is_opened_first_witness :
  "setuptools" ∈ installed sample_state_empty_tree
  ∧ files sample_state_empty_tree !! "README.rst" = None
  ∧ result (setup_py sample_find_packages sample_setup_egg_info sample_state_empty_tree)
    = inl (FileNotFoundError "README.rst")
  ∧ open_calls (trace (setup_py sample_find_packages sample_setup_egg_info
                         sample_state_empty_tree))
    = [("README.rst", mode_r)].
Proof.
  assert (Hi : "setuptools" ∈ installed sample_state_empty_tree)
    by (simpl; by apply elem_of_singleton).
  assert (Hr : files sample_state_empty_tree !! "README.rst" = None)
    by (vm_compute; reflexivity).
  split; [exact Hi |]. split; [exact Hr |].
  exact (readme_is_opened_first sample_find_packages sample_setup_egg_info _ Hi Hr).
Defined.

Lemma failed_run_restores_store_witness :
  setup_calls (trace (setup_py sample_find_packages sample_setup_egg_info
                        sample_state_more_no_history)) = []
  ∧ final (setup_py sample_find_packages sample_setup_egg_info
             sample_state_more_no_history)
    = sample_state_more_no_history.
Proof.
  assert (Hc : setup_calls (trace (setup_py sample_find_packages sample_setup_egg_info
                                     sample_state_more_no_history)) = [])
    by (vm_compute; reflexivity).
  split; [exact Hc |].
  exact (failed_run_restores_store sample_find_packages sample_setup_egg_info _ Hc).
Defined.

Lemma packages_from_initial_tree_witness :
  In (setup_call_kwargs "spharpy" "0.3.2 (2019)" ["spharpy"])
     (setup_calls (trace (setup_py sample_find_packages sample_setup_egg_info
                            sample_state)))
  ∧ packages (setup_call_kwargs "spharpy" "0.3.2 (2019)" ["spharpy"])
    = sample_find_packages (files sample_state).
Proof.
  assert (Hin : In (setup_call_kwargs "spharpy" "0.3.2 (2019)" ["spharpy"])
                   (setup_calls (trace (setup_py sample_find_packages
                                          sample_setup_egg_info sample_state)))).
  { vm_compute. left. reflexivity. }
  split; [exact Hin |].
  exact (packages_from_initial_tree sample_find_packages sample_setup_egg_info
           sample_state _ Hin).
Defined.

Lemma long_description_layout_witness :
  files sample_state !! "README.rst" = Some "spharpy"
  ∧ files sample_state !! "HISTORY.rst" = Some "0.3.2 (2019)"
  ∧ In (setup_call_kwargs "spharpy" "0.3.2 (2019)" ["spharpy"])
       (setup_calls (trace (setup_py sample_find_packages sample_setup_egg_info
                              sample_state)))
  ∧ String.length (long_description
                     (setup_call_kwargs "spharpy" "0.3.2 (2019)" ["spharpy"]))
    = 7 + 2 + 12.
Proof.
  assert (Hr : files sample_state !! "README.rst" = Some "spharpy")
    by (vm_compute; reflexivity).
  assert (Hh : files sample_state !! "HISTORY.rst" = Some "0.3.2 (2019)")
    by (vm_compute; reflexivity).
  assert (Hin : In (setup_call_kwargs "spharpy" "0.3.2 (2019)" ["spharpy"])
                   (setup_calls (trace (setup_py sample_find_packages
                                          sample_setup_egg_info sample_state)))).
  { vm_compute. left. reflexivity. }
  split; [exact Hr |]. split; [exact Hh |]. split; [exact Hin |].
  exact (proj1 (long_description_layout sample_find_packages sample_setup_egg_info
                  sample_state _ _ _ Hr Hh Hin)).
Defined.

Lemma script_depends_on_two_files_only_witness :
  sample_state ≠ sample_state_more
  ∧ trace (setup_py sample_find_packages sample_setup_strict sample_state)
    = trace (setup_py sample_find_packages sample_setup_strict sample_state_more).
Proof.
  split; [intros Heq; apply (f_equal open_files) in Heq; discriminate Heq |].
  apply (script_depends_on_two_files_only sample_find_packages sample_setup_strict
           sample_state sample_state_more).
  - simpl. split; intros _; [apply elem_of_union_l |]; by apply elem_of_singleton.
  - vm_compute. reflexivity.
  - vm_compute. reflexivity.
  - reflexivity.
Defined.

(** With a [setup] that looks at setup.cfg the two stores of the last
    lemma end differently, on the same events. *)
Example sample_results_differ :
  result (setup_py sample_find_packages sample_setup_strict sample_state) = inr ()
  ∧ result (setup_py sample_find_packages sample_setup_strict sample_state_more)
    = inl (SystemExit "error in setup.cfg").
Proof. split; vm_compute; reflexivity. Qed.

Example long_description_of_empty_files :
  long_description (setup_call_kwargs "" "" []) = String LF (String LF "").
Proof. reflexivity. Qed.

End ScriptMore.
